(** * The holistic-tracking export surface

    A shallow embedding of [dll/holistic_tracking_dll/HolisticTrackingApi.cpp]
    and [HolisticTrackingApi.h]: five C-linkage functions, each of which calls
    one method of the global object [m_HolisticTrackingDetect] and returns what
    that method returns.

    The class [HolisticTrackingDetect] is declared in [HolisticTrackingDetect.h],
    outside the two files embedded here; it enters the development as an
    interface (a type class), and the exported functions are stated over every
    implementation of it.  Two implementations are given below: one that logs
    the calls it receives, and one that follows the lifecycle the specification
    describes. *)

From stdpp Require Import base option list gmap.
From Stdlib Require Import ZArith.

(** ** C values *)

(** A C [int].  The export surface does no arithmetic on the integers it is
    handed, so no wrap-around is ever computed; they are carried as [Z]. *)
Abbreviation int := Z (only parsing).

(** A C pointer ([const char*], [void*], [int*]): null, or an address.  The
    export surface has no memory of its own to look the address up in. *)
Inductive pointer : Type :=
  | NULL
  | Ptr (address : positive).

(** The two return codes documented in [HolisticTrackingApi.h]
    ("0 失败, 1 成功"). *)
Definition FAILURE : int := 0%Z.
Definition SUCCESS : int := 1%Z.

(** ** The detector interface *)

(** The methods of [GoogleMediapipeDetect::HolisticTrackingDetect] that
    [HolisticTrackingApi.cpp] calls, with the argument lists of the call sites.
    [D] is the state of one detector object together with whatever the object
    can reach; a method maps the state before the call to the [int] it returns
    and the state after.  [HolisticTrackingDetect_ctor] is the default
    constructor. *)
Class HolisticTrackingDetect (D : Type) : Type := {
  HolisticTrackingDetect_ctor : D;
  InitModel : pointer → bool → bool → bool → bool → D → int * D;
  DetectImageDirect : int → int → pointer → pointer → bool → D → int * D;
  DetectCamera : bool → D → int * D;
  Release : D → int * D;
  DetectImage : int → int → int → pointer → pointer → pointer → D → int * D
}.

(** ** HolisticTrackingApi.cpp *)

(** The detector objects alive in the process, by object identity. *)
Abbreviation Process D := (gmap positive D).

(** [HolisticTrackingDetect m_HolisticTrackingDetect;] (line 6): the identity
    of the one object with static storage. *)
Definition m_HolisticTrackingDetect : positive := 1%positive.

(** One call through the function table, as the embedding host makes it: the
    exported function and its arguments. *)
Inductive ApiCall : Type :=
  | ApiInit (model_path : pointer) (video pose hand face : bool)
  | ApiDetectFrameDirect (image_width image_height : int)
      (image_data detect_result : pointer) (show_result_image : bool)
  | ApiDetectCamera (show_image : bool)
  | ApiRelease
  | ApiDetectFrame (image_width image_height type : int)
      (image_data detect_result detect_result_data : pointer).

Section Api.
Context {D : Type} {detector : HolisticTrackingDetect D}.

(** Loading the library runs the static initialiser of line 6: the global is
    default-constructed, and nothing else is. *)
Definition library_load : Process D :=
  {[ m_HolisticTrackingDetect := HolisticTrackingDetect_ctor ]}.

(** [return m_HolisticTrackingDetect.method(...)]: the method runs on the
    global object, which it may mutate in place, and its result is returned.
    [None] stands for a call made while the global does not exist (before
    the library is loaded), which C++ leaves undefined. *)
Definition invoke (method : D → int * D) (p : Process D)
  : option (int * Process D) :=
  d ← p !! m_HolisticTrackingDetect;
  let '(ret, d') := method d in
  Some (ret, <[m_HolisticTrackingDetect := d']> p).

(** Lines 8-16. *)
Definition MediapipeHolisticTrackingInit
    (model_path : pointer)
    (is_need_video_outputstream is_need_pose_outputstream
     is_need_hand_outputstream is_need_face_outputstream : bool)
  : Process D → option (int * Process D) :=
  invoke (InitModel model_path is_need_video_outputstream
            is_need_pose_outputstream is_need_hand_outputstream
            is_need_face_outputstream).

(** Lines 18-21. *)
Definition MediapipeHolisticTrackingDetectFrameDirect
    (image_width image_height : int) (image_data detect_result : pointer)
    (show_result_image : bool)
  : Process D → option (int * Process D) :=
  invoke (DetectImageDirect image_width image_height image_data
            detect_result show_result_image).

(** Lines 23-26. *)
Definition MediapipeHolisticTrackingDetectCamera (show_image : bool)
  : Process D → option (int * Process D) :=
  invoke (DetectCamera show_image).

(** Lines 28-31. *)
Definition MediapipeHolisticTrackingRelease
  : Process D → option (int * Process D) :=
  invoke Release.

(** Lines 33-35. *)
Definition MediapipeHolisticTrackingDetectFrame
    (image_width image_height type : int)
    (image_data detect_result detect_result_data : pointer)
  : Process D → option (int * Process D) :=
  invoke (DetectImage image_width image_height type image_data
            detect_result detect_result_data).

(** *** The host's side of the boundary *)

(** The exported function a call names, applied to the call's arguments. *)
Definition exported (c : ApiCall) : Process D → option (int * Process D) :=
  match c with
  | ApiInit path v p h f => MediapipeHolisticTrackingInit path v p h f
  | ApiDetectFrameDirect w h img res show =>
      MediapipeHolisticTrackingDetectFrameDirect w h img res show
  | ApiDetectCamera show => MediapipeHolisticTrackingDetectCamera show
  | ApiRelease => MediapipeHolisticTrackingRelease
  | ApiDetectFrame w h ty img res dat =>
      MediapipeHolisticTrackingDetectFrame w h ty img res dat
  end.

(** The host serialises its calls: each runs on the process state the
    previous one left.  The result is the list of returned codes, in call
    order, and the final state. *)
Fixpoint run (calls : list ApiCall) (p : Process D)
  : option (list int * Process D) :=
  match calls with
  | [] => Some ([], p)
  | c :: rest =>
      '(ret, p1) ← exported c p;
      '(rets, p2) ← run rest p1;
      Some (ret :: rets, p2)
  end.
End Api.

Definition is_init (c : ApiCall) : bool :=
  match c with ApiInit _ _ _ _ _ => true | _ => false end.

Definition is_detect (c : ApiCall) : bool :=
  match c with
  | ApiDetectFrameDirect _ _ _ _ _ | ApiDetectCamera _
  | ApiDetectFrame _ _ _ _ _ _ => true
  | _ => false
  end.

(** ** HolisticTrackingApi.h: the default arguments *)

(** The declarations of lines 44-49, 62 and 71 give default values to trailing
    [bool] parameters.  A C++ call site may leave a trailing run of them out;
    the compiler then passes the declared defaults. *)
Module Cxx.
Definition default_is_need_video_outputstream : bool := true.
Definition default_is_need_pose_outputstream : bool := true.
Definition default_is_need_hand_outputstream : bool := true.
Definition default_is_need_face_outputstream : bool := true.
Definition default_show_result_image : bool := false.
Definition default_show_image : bool := false.

(** The five ways to write a call of [MediapipeHolisticTrackingInit]. *)
Inductive InitCallSite : Type :=
  | Init1 (model_path : pointer)
  | Init2 (model_path : pointer) (video : bool)
  | Init3 (model_path : pointer) (video pose : bool)
  | Init4 (model_path : pointer) (video pose hand : bool)
  | Init5 (model_path : pointer) (video pose hand face : bool).

Section CallSites.
Context {D : Type} {detector : HolisticTrackingDetect D}.

Definition Init (site : InitCallSite)
  : Process D → option (int * Process D) :=
  match site with
  | Init1 path =>
      MediapipeHolisticTrackingInit path
        default_is_need_video_outputstream
        default_is_need_pose_outputstream
        default_is_need_hand_outputstream
        default_is_need_face_outputstream
  | Init2 path v =>
      MediapipeHolisticTrackingInit path v
        default_is_need_pose_outputstream
        default_is_need_hand_outputstream
        default_is_need_face_outputstream
  | Init3 path v p =>
      MediapipeHolisticTrackingInit path v p
        default_is_need_hand_outputstream
        default_is_need_face_outputstream
  | Init4 path v p h =>
      MediapipeHolisticTrackingInit path v p h
        default_is_need_face_outputstream
  | Init5 path v p h f => MediapipeHolisticTrackingInit path v p h f
  end.

(** [show_result_image] is the only parameter with a default: it is given
    ([Some]) or left out ([None]). *)
Definition DetectFrameDirect (image_width image_height : int)
    (image_data detect_result : pointer) (show_result_image : option bool)
  : Process D → option (int * Process D) :=
  MediapipeHolisticTrackingDetectFrameDirect image_width image_height
    image_data detect_result
    (default default_show_result_image show_result_image).

Definition DetectCamera (show_image : option bool)
  : Process D → option (int * Process D) :=
  MediapipeHolisticTrackingDetectCamera
    (default default_show_image show_image).
End CallSites.
End Cxx.

(** ** A detector that logs what it is called with *)

(** One method call as the detector receives it: the method and its arguments
    in parameter order. *)
Inductive MethodCall : Type :=
  | CallInitModel (model_path : pointer) (video pose hand face : bool)
  | CallDetectImageDirect (image_width image_height : int)
      (image_data detect_result : pointer) (show_result_image : bool)
  | CallDetectCamera (show_image : bool)
  | CallRelease
  | CallDetectImage (image_width image_height type : int)
      (image_data detect_result detect_result_data : pointer).

(** The method an exported function is written to call, with the arguments in
    the order the source passes them. *)
Definition forwarded (c : ApiCall) : MethodCall :=
  match c with
  | ApiInit path v p h f => CallInitModel path v p h f
  | ApiDetectFrameDirect w h img res show =>
      CallDetectImageDirect w h img res show
  | ApiDetectCamera show => CallDetectCamera show
  | ApiRelease => CallRelease
  | ApiDetectFrame w h ty img res dat => CallDetectImage w h ty img res dat
  end.

(** The detector's side of one call: the method [c] names, applied to the
    arguments [c] carries. *)
Definition perform {D : Type} {detector : HolisticTrackingDetect D}
    (c : MethodCall) : D → int * D :=
  match c with
  | CallInitModel path v p h f => InitModel path v p h f
  | CallDetectImageDirect w h img res show =>
      DetectImageDirect w h img res show
  | CallDetectCamera show => DetectCamera show
  | CallRelease => Release
  | CallDetectImage w h ty img res dat => DetectImage w h ty img res dat
  end.

Module Recorder.
Section Recorder.
(** What the logging detector answers; it may depend on the call and on
    everything received before it. *)
Variable answer : list MethodCall → MethodCall → int.

(** The state is the log: the calls received so far, oldest first. *)
Definition receive (c : MethodCall) (log : list MethodCall)
  : int * list MethodCall :=
  (answer log c, log ++ [c]).

Definition detector : HolisticTrackingDetect (list MethodCall) := {|
  HolisticTrackingDetect_ctor := [];
  InitModel path v p h f := receive (CallInitModel path v p h f);
  DetectImageDirect w h img res show :=
    receive (CallDetectImageDirect w h img res show);
  DetectCamera show := receive (CallDetectCamera show);
  Release := receive CallRelease;
  DetectImage w h ty img res dat :=
    receive (CallDetectImage w h ty img res dat)
|}.
End Recorder.
End Recorder.

(** ** The detector the specification describes *)

Module SpecDetector.
(** Modelled from the spec: the lifecycle of [HolisticTrackingDetect], whose
    implementation lies outside the two files embedded here.  Section 3 of the
    specification gives it as "uninitialized → initialized (via InitModel ...)
    → actively serving detection calls → released". *)
Inductive Stage : Type :=
  | Uninitialized
  | Initialized
  | Released.

(** Modelled from the spec: the optional output streams ("video, pose, hand,
    face") that [InitModel] switches on or off in the missing detector. *)
Record Streams : Type := {
  video : bool;
  pose : bool;
  hand : bool;
  face : bool
}.

(** Modelled from the spec: the state of the missing detector object, namely
    its lifecycle stage and the stream configuration of the last successful
    [InitModel], if there was one. *)
Record state : Type := {
  stage : Stage;
  active : option Streams
}.

(** Modelled from the spec: the binary return code of the missing detector's
    methods, "0 = failure, 1 = success" (section 7). *)
Definition code (ok : bool) : int := if ok then SUCCESS else FAILURE.

Section Detector.
(** Modelled from the spec: "any failure semantics (invalid path, malformed
    frame, camera unavailable) are entirely defined by the external
    detector and are not observable from this material" (section 4.1).
    [outcome c] says whether the missing detector succeeds at the work of
    call [c] once its stage lets it attempt that work; every theorem
    holds for every [outcome]. *)
Variable outcome : MethodCall → bool.

(** Modelled from the spec: the missing default constructor; a detector
    starts "uninitialized" with no stream configured. *)
Definition ctor : state := {| stage := Uninitialized; active := None |}.

(** Modelled from the spec: the missing [InitModel], which "loads a model
    file and configures which output streams — video, pose, hand, face —
    are active" and so makes the detector "initialized". *)
Definition InitModel (model_path : pointer) (v p h f : bool) (d : state)
  : int * state :=
  if outcome (CallInitModel model_path v p h f)
  then (SUCCESS,
        {| stage := Initialized;
           active := Some {| video := v; pose := p; hand := h; face := f |}
        |})
  else (FAILURE, d).

(** Modelled from the spec: the missing detect methods.  A detect call is
    served only by an initialized detector: before [InitModel] and after
    [Release] it "returns failure" (section 8, (1) and (3)); the lifecycle
    is "mutated only via InitModel / Release" (section 3). *)
Definition detect (c : MethodCall) (d : state) : int * state :=
  match stage d with
  | Initialized => (code (outcome c), d)
  | Uninitialized | Released => (FAILURE, d)
  end.

(** Modelled from the spec: the missing [Release], which "tears down the
    detector" (section 4.1), leaving it "released"; called on a detector
    that is not initialized it "returns failure" (section 8, (1)). *)
Definition Release (d : state) : int * state :=
  match stage d with
  | Initialized =>
      (code (outcome CallRelease),
       {| stage := Released; active := active d |})
  | Uninitialized | Released => (FAILURE, d)
  end.

(** Modelled from the spec: the missing class [HolisticTrackingDetect],
    assembled from the methods above. *)
Definition detector : HolisticTrackingDetect state :=
  Build_HolisticTrackingDetect state
    ctor
    InitModel
    (λ w h img res show, detect (CallDetectImageDirect w h img res show))
    (λ show, detect (CallDetectCamera show))
    Release
    (λ w h ty img res dat, detect (CallDetectImage w h ty img res dat)).
End Detector.
End SpecDetector.

(** The part of the process state the export surface answers for: which
    detector objects exist, and the lifecycle stage of the global one. *)
Definition shim_state (p : Process SpecDetector.state)
  : gset positive * option SpecDetector.Stage :=
  (dom p, SpecDetector.stage <$> p !! m_HolisticTrackingDetect).

(** ** The detector called directly *)

(** The detector's methods called one after another on one object, with no
    export surface in between: each call runs on the state the previous one
    left.  The result is the list of returned values, in call order, and the
    state of the object after the last call. *)
Fixpoint detector_run {D : Type} {detector : HolisticTrackingDetect D}
    (calls : list MethodCall) (d : D) : list int * D :=
  match calls with
  | [] => ([], d)
  | c :: rest =>
      let '(ret, d1) := perform c d in
      let '(rets, d2) := detector_run rest d1 in
      (ret :: rets, d2)
  end.

(** ** HolisticTrackingApi.h: the preprocessor lines *)

Module Header.
(** What the macro [EXPORT_API] is defined as: line 10, line 12, line 18, or
    the empty definition of line 30. *)
Inductive Attribute : Type :=
  | declspec_dllexport
  | declspec_dllimport
  | visibility_default
  | empty_definition.

(** The macros the header tests or defines, as the preprocessor holds them:
    whether the include guard, [EXPORT] and [_WIN32] are defined, and what
    [EXPORT_API] is defined as, if it is. *)
Record Macros : Type := {
  HOLISTIC_TRACKING_API_H : bool;
  EXPORT : bool;
  _WIN32 : bool;
  EXPORT_API : option Attribute
}.

(** [#define EXPORT_API a]; a definition made earlier is replaced. *)
Definition define_EXPORT_API (a : Attribute) (m : Macros) : Macros :=
  {| HOLISTIC_TRACKING_API_H := HOLISTIC_TRACKING_API_H m;
     EXPORT := EXPORT m;
     _WIN32 := _WIN32 m;
     EXPORT_API := Some a |}.

(** Lines 2 and 4: [#define HOLISTIC_TRACKING_API_H] and [#define EXPORT]. *)
Definition define_guard_and_EXPORT (m : Macros) : Macros :=
  {| HOLISTIC_TRACKING_API_H := true;
     EXPORT := true;
     _WIN32 := _WIN32 m;
     EXPORT_API := EXPORT_API m |}.

(** Lines 8-22: the choice of [EXPORT_API] by platform and by [EXPORT]. *)
Definition choose_EXPORT_API (m : Macros) : Macros :=
  if _WIN32 m then
    if EXPORT m then define_EXPORT_API declspec_dllexport m
    else define_EXPORT_API declspec_dllimport m
  else
    if EXPORT m then define_EXPORT_API visibility_default m
    else m.

(** Lines 29-31: [#ifndef EXPORT_API] / [#define EXPORT_API]. *)
Definition default_EXPORT_API (m : Macros) : Macros :=
  match EXPORT_API m with
  | None => define_EXPORT_API empty_definition m
  | Some _ => m
  end.

(** One [#include "HolisticTrackingApi.h"]: the macros after the header, from
    the macros before it.  Under the guard of line 1 the header is skipped
    whole.  The two system headers it includes are taken not to define any of
    the four macros. *)
Definition HolisticTrackingApi_h (m : Macros) : Macros :=
  if HOLISTIC_TRACKING_API_H m then m
  else default_EXPORT_API (choose_EXPORT_API (define_guard_and_EXPORT m)).
End Header.

(** * Properties *)

(** ** One method call on the global *)

Section ApiFacts.
Context {D : Type} {detector : HolisticTrackingDetect D}.
Implicit Types (p : Process D) (d : D) (method : D → int * D).

Lemma invoke_loaded method p d :
  p !! m_HolisticTrackingDetect = Some d →
  invoke method p
  = Some ((method d).1, <[m_HolisticTrackingDetect := (method d).2]> p).
Proof.
  intros Hd. unfold invoke. rewrite Hd. simpl. by destruct (method d).
Qed.

Lemma invoke_unloaded method p :
  p !! m_HolisticTrackingDetect = None → invoke method p = None.
Proof. intros Hd. unfold invoke. by rewrite Hd. Qed.

Lemma invoke_inv method p ret p' :
  invoke method p = Some (ret, p') →
  ∃ d, p !! m_HolisticTrackingDetect = Some d
       ∧ ret = (method d).1
       ∧ p' = <[m_HolisticTrackingDetect := (method d).2]> p.
Proof.
  destruct (p !! m_HolisticTrackingDetect) as [d|] eqn:Hd.
  - rewrite (invoke_loaded _ _ _ Hd). intros [= <- <-]. eauto.
  - by rewrite invoke_unloaded.
Qed.

Lemma exported_perform c :
  exported c = invoke (perform (forwarded c)).
Proof. by destruct c. Qed.

Lemma exported_loaded c p d :
  p !! m_HolisticTrackingDetect = Some d →
  exported c p
  = Some ((perform (forwarded c) d).1,
          <[m_HolisticTrackingDetect := (perform (forwarded c) d).2]> p).
Proof. rewrite exported_perform. apply invoke_loaded. Qed.

(** A call touches the global and nothing else: the same objects exist after
    it, and every other object is as it was. *)
Lemma exported_dom c p ret p' :
  exported c p = Some (ret, p') → dom p' = dom p.
Proof.
  rewrite exported_perform. intros Hcall.
  apply invoke_inv in Hcall as (d & Hd & _ & ->).
  apply dom_insert_lookup_L. by exists d.
Qed.

Lemma exported_frame c p ret p' k :
  exported c p = Some (ret, p') →
  k ≠ m_HolisticTrackingDetect → p' !! k = p !! k.
Proof.
  rewrite exported_perform. intros Hcall Hk.
  apply invoke_inv in Hcall as (d & _ & _ & ->).
  by rewrite lookup_insert_ne.
Qed.

(** For a detector whose methods answer 0 or 1, so does the export surface. *)
Lemma exported_binary_of_detector c p ret p' :
  (∀ m d, (perform m d).1 = 0%Z ∨ (perform m d).1 = 1%Z) →
  exported c p = Some (ret, p') → ret = 0%Z ∨ ret = 1%Z.
Proof.
  intros Hbin. rewrite exported_perform. intros Hcall.
  apply invoke_inv in Hcall as (d & _ & -> & _). apply Hbin.
Qed.

Lemma run_cons c calls p d :
  p !! m_HolisticTrackingDetect = Some d →
  run (c :: calls) p
  = '(rets, p2) ← run calls
       (<[m_HolisticTrackingDetect := (perform (forwarded c) d).2]> p);
    Some ((perform (forwarded c) d).1 :: rets, p2).
Proof. intros Hd. simpl. by rewrite (exported_loaded _ _ _ Hd). Qed.

(** From a process that holds the global and nothing else, every run of
    calls goes through and leaves a process of the same shape. *)
Lemma run_singleton calls d :
  ∃ rets d',
    run calls {[ m_HolisticTrackingDetect := d ]}
    = Some (rets, {[ m_HolisticTrackingDetect := d' ]})
    ∧ length rets = length calls.
Proof.
  revert d. induction calls as [|c calls IH]; intros d.
  - by exists [], d.
  - rewrite (run_cons c calls _ d) by apply lookup_singleton_eq.
    rewrite insert_singleton_eq.
    destruct (IH (perform (forwarded c) d).2) as (rets & d' & -> & Hlen).
    eexists _, d'. split; [done|]. simpl. by rewrite Hlen.
Qed.
End ApiFacts.

(** ** The logging detector behind the export surface *)

Section RecorderFacts.
Variable answer : list MethodCall → MethodCall → int.

Lemma perform_recorder c log :
  perform (detector := Recorder.detector answer) c log
  = (answer log c, log ++ [c]).
Proof. by destruct c. Qed.

Lemma exported_recorder c (p : Process (list MethodCall)) log :
  p !! m_HolisticTrackingDetect = Some log →
  exported (detector := Recorder.detector answer) c p
  = Some (answer log (forwarded c),
          <[m_HolisticTrackingDetect := log ++ [forwarded c]]> p).
Proof.
  intros Hlog. rewrite (exported_loaded _ _ _ Hlog).
  by rewrite perform_recorder.
Qed.

(** Every call of a run is received by the one object the process holds, in
    the order the host made the calls. *)
Lemma run_recorder calls log :
  ∃ rets,
    run (detector := Recorder.detector answer) calls
      {[ m_HolisticTrackingDetect := log ]}
    = Some (rets,
            {[ m_HolisticTrackingDetect := log ++ (forwarded <$> calls) ]}).
Proof.
  revert log. induction calls as [|c calls IH]; intros log.
  - exists []. simpl. by rewrite app_nil_r.
  - rewrite (run_cons c calls _ log) by apply lookup_singleton_eq.
    rewrite insert_singleton_eq, perform_recorder. simpl.
    destruct (IH (log ++ [forwarded c])) as [rets ->].
    eexists. simpl. by rewrite <- app_assoc.
Qed.
End RecorderFacts.

(** ** The exported functions forward *)

(** C1.  Each of the five exported functions, called on a process whose global
    detector is in state [d], returns exactly the value the corresponding
    detector method ([InitModel], [DetectImageDirect], [DetectImage],
    [DetectCamera], [Release]) returns on [d] with the same arguments in the
    same order, and leaves the global in the state that one method call leaves
    it in.  This holds for every implementation of the detector, every
    argument tuple and every state: the export surface adds no check, no
    change of arguments, no second call and no reading of the result. *)
Theorem exported_functions_forward
    {D : Type} {detector : HolisticTrackingDetect D} (p : Process D) (d : D) :
  p !! m_HolisticTrackingDetect = Some d →
  (∀ model_path video pose hand face,
     MediapipeHolisticTrackingInit model_path video pose hand face p
     = Some ((InitModel model_path video pose hand face d).1,
             <[m_HolisticTrackingDetect :=
                 (InitModel model_path video pose hand face d).2]> p))
  ∧ (∀ w h image_data detect_result show,
       MediapipeHolisticTrackingDetectFrameDirect
         w h image_data detect_result show p
       = Some ((DetectImageDirect w h image_data detect_result show d).1,
               <[m_HolisticTrackingDetect :=
                   (DetectImageDirect w h image_data detect_result show d).2]>
                 p))
  ∧ (∀ w h type image_data detect_result detect_result_data,
       MediapipeHolisticTrackingDetectFrame
         w h type image_data detect_result detect_result_data p
       = Some ((DetectImage w h type image_data detect_result
                  detect_result_data d).1,
               <[m_HolisticTrackingDetect :=
                   (DetectImage w h type image_data detect_result
                      detect_result_data d).2]> p))
  ∧ (∀ show,
       MediapipeHolisticTrackingDetectCamera show p
       = Some ((DetectCamera show d).1,
               <[m_HolisticTrackingDetect := (DetectCamera show d).2]> p))
  ∧ MediapipeHolisticTrackingRelease p
    = Some ((Release d).1, <[m_HolisticTrackingDetect := (Release d).2]> p).
Proof.
  intros Hd. repeat split; intros; by apply invoke_loaded.
Qed.

Lemma exported_functions_forward_witness :
  let detector := Recorder.detector (λ log _, 40 + Z.of_nat (length log))%Z in
  let p : Process (list MethodCall) :=
    {[ m_HolisticTrackingDetect := [CallDetectCamera true] ]} in
  p !! m_HolisticTrackingDetect = Some [CallDetectCamera true]
  ∧ MediapipeHolisticTrackingInit (Ptr 64) true false true false p
    = Some (41%Z,
            {[ m_HolisticTrackingDetect :=
                 [CallDetectCamera true;
                  CallInitModel (Ptr 64) true false true false] ]})
  ∧ MediapipeHolisticTrackingRelease p
    = Some (41%Z,
            {[ m_HolisticTrackingDetect :=
                 [CallDetectCamera true; CallRelease] ]}).
Proof.
  intros detector p.
  assert (Hd : p !! m_HolisticTrackingDetect = Some [CallDetectCamera true])
    by reflexivity.
  destruct (exported_functions_forward p [CallDetectCamera true] Hd)
    as (Hinit & _ & _ & _ & Hrelease).
  split; [exact Hd|]. split.
  - rewrite Hinit. reflexivity.
  - rewrite Hrelease. reflexivity.
Defined.

(** ** One detector object *)

(** C5.  The process holds exactly one detector object, the global
    [m_HolisticTrackingDetect], constructed when the library is loaded.
    Whatever calls the host makes after loading, in whatever order, every one
    goes through and the process afterwards still consists of that one object
    and nothing else; in particular two calls of
    [MediapipeHolisticTrackingInit] leave one object.  That every call is
    dispatched to this object is read off a detector that logs what it
    receives: after a run, the log of the one object holds every call of the
    run, in order. *)
Theorem single_global_instance
    {D : Type} {detector : HolisticTrackingDetect D} :
  library_load = {[ m_HolisticTrackingDetect := HolisticTrackingDetect_ctor ]}
  ∧ size (library_load : Process D) = 1
  ∧ (∀ calls : list ApiCall,
       ∃ rets d,
         run calls library_load
         = Some (rets, {[ m_HolisticTrackingDetect := d ]})
         ∧ length rets = length calls)
  ∧ (∀ path1 v1 p1 h1 f1 path2 v2 p2 h2 f2,
       ∃ rets d,
         run [ApiInit path1 v1 p1 h1 f1; ApiInit path2 v2 p2 h2 f2]
           library_load
         = Some (rets, {[ m_HolisticTrackingDetect := d ]}))
  ∧ (∀ answer (calls : list ApiCall),
       ∃ rets,
         run (detector := Recorder.detector answer) calls
           (library_load (detector := Recorder.detector answer))
         = Some (rets, {[ m_HolisticTrackingDetect := forwarded <$> calls ]})).
Proof.
  split; [done|]. split; [apply map_size_singleton|]. split; [|split].
  - intros calls. apply run_singleton.
  - intros. destruct (run_singleton
      [ApiInit path1 v1 p1 h1 f1; ApiInit path2 v2 p2 h2 f2]
      HolisticTrackingDetect_ctor) as (rets & d & Hrun & _).
    by exists rets, d.
  - intros answer calls. apply (run_recorder answer calls []).
Qed.

(** ** The stream flags *)

(** C7.  [MediapipeHolisticTrackingInit] hands its four stream flags to the
    detector's [InitModel] unchanged and in their declared positions (video,
    pose, hand, face), after the model path: for every detector the call is
    the detector's [InitModel] on exactly these arguments, and a detector that
    logs its calls records [InitModel] with the path and the four flags as
    they were passed. *)
Theorem Init_delivers_stream_flags
    {D : Type} {detector : HolisticTrackingDetect D}
    (model_path : pointer) (video pose hand face : bool)
    (p : Process D) (d : D)
    (answer : list MethodCall → MethodCall → int)
    (q : Process (list MethodCall)) (log : list MethodCall) :
  p !! m_HolisticTrackingDetect = Some d →
  q !! m_HolisticTrackingDetect = Some log →
  MediapipeHolisticTrackingInit model_path video pose hand face p
  = Some ((InitModel model_path video pose hand face d).1,
          <[m_HolisticTrackingDetect :=
              (InitModel model_path video pose hand face d).2]> p)
  ∧ MediapipeHolisticTrackingInit (detector := Recorder.detector answer)
      model_path video pose hand face q
    = Some (answer log (CallInitModel model_path video pose hand face),
            <[m_HolisticTrackingDetect :=
                log ++ [CallInitModel model_path video pose hand face]]> q).
Proof.
  intros Hd Hlog. split.
  - by apply invoke_loaded.
  - apply (exported_recorder answer
             (ApiInit model_path video pose hand face) q log Hlog).
Qed.

Lemma Init_delivers_stream_flags_witness :
  let detector := Recorder.detector (λ _ _, SUCCESS) in
  let p : Process (list MethodCall) := library_load in
  p !! m_HolisticTrackingDetect = Some []
  ∧ MediapipeHolisticTrackingInit (Ptr 64) true false false true p
    = Some (SUCCESS,
            {[ m_HolisticTrackingDetect :=
                 [CallInitModel (Ptr 64) true false false true] ]}).
Proof.
  intros detector p.
  assert (Hlog : p !! m_HolisticTrackingDetect = Some []) by reflexivity.
  destruct (Init_delivers_stream_flags (Ptr 64) true false false true
              p [] (λ _ _, SUCCESS) p [] Hlog Hlog) as [Hany Hrec].
  split; [exact Hlog|].
  exact Hrec.
Defined.

(** ** Default arguments *)

(** C8.  For a C++ caller the defaults of [HolisticTrackingApi.h] apply: a call
    of [MediapipeHolisticTrackingInit] that gives only the model path is the
    call with all four stream flags [true], and a call of
    [MediapipeHolisticTrackingDetectFrameDirect] or
    [MediapipeHolisticTrackingDetectCamera] that leaves the show flag out is
    the call with that flag [false]. *)
Theorem default_arguments {D : Type} {detector : HolisticTrackingDetect D} :
  (∀ model_path (p : Process D),
     Cxx.Init (Cxx.Init1 model_path) p
     = MediapipeHolisticTrackingInit model_path true true true true p
     ∧ Cxx.Init (Cxx.Init1 model_path) p
       = Cxx.Init (Cxx.Init5 model_path true true true true) p)
  ∧ (∀ w h image_data detect_result (p : Process D),
       Cxx.DetectFrameDirect w h image_data detect_result None p
       = MediapipeHolisticTrackingDetectFrameDirect
           w h image_data detect_result false p
       ∧ Cxx.DetectFrameDirect w h image_data detect_result None p
         = Cxx.DetectFrameDirect w h image_data detect_result (Some false) p)
  ∧ (∀ p : Process D,
       Cxx.DetectCamera None p
       = MediapipeHolisticTrackingDetectCamera false p
       ∧ Cxx.DetectCamera None p = Cxx.DetectCamera (Some false) p).
Proof. repeat split. Qed.

(** ** Pointers and sizes *)

(** C9.  The export surface looks at none of its arguments.  For every
    detector and every call, with the global in place the call goes through to
    the detector (it never stops short of it).  A detector that logs its calls
    records, for the three functions that take pointers, exactly one call
    carrying the pointers and the integers as they were passed; null pointers
    and zero or negative widths and heights are passed on like any other
    value. *)
Theorem pointers_and_sizes_reach_detector
    {D : Type} {detector : HolisticTrackingDetect D}
    (p : Process D) (d : D)
    (answer : list MethodCall → MethodCall → int)
    (q : Process (list MethodCall)) (log : list MethodCall) :
  p !! m_HolisticTrackingDetect = Some d →
  q !! m_HolisticTrackingDetect = Some log →
  (∀ c, is_Some (exported c p))
  ∧ (∀ model_path video pose hand face,
       MediapipeHolisticTrackingInit (detector := Recorder.detector answer)
         model_path video pose hand face q
       = Some (answer log (CallInitModel model_path video pose hand face),
               <[m_HolisticTrackingDetect :=
                   log ++ [CallInitModel model_path video pose hand face]]>
                 q))
  ∧ (∀ w h image_data detect_result show,
       MediapipeHolisticTrackingDetectFrameDirect
         (detector := Recorder.detector answer)
         w h image_data detect_result show q
       = Some (answer log
                 (CallDetectImageDirect w h image_data detect_result show),
               <[m_HolisticTrackingDetect :=
                   log ++ [CallDetectImageDirect
                             w h image_data detect_result show]]> q))
  ∧ (∀ w h type image_data detect_result detect_result_data,
       MediapipeHolisticTrackingDetectFrame
         (detector := Recorder.detector answer)
         w h type image_data detect_result detect_result_data q
       = Some (answer log
                 (CallDetectImage w h type image_data detect_result
                    detect_result_data),
               <[m_HolisticTrackingDetect :=
                   log ++ [CallDetectImage w h type image_data detect_result
                             detect_result_data]]> q)).
Proof.
  intros Hd Hlog. split; [|split; [|split]].
  - intros c. rewrite (exported_loaded c p d Hd). by eexists.
  - intros. apply (exported_recorder answer (ApiInit _ _ _ _ _) q log Hlog).
  - intros.
    apply (exported_recorder answer (ApiDetectFrameDirect _ _ _ _ _)
             q log Hlog).
  - intros.
    apply (exported_recorder answer (ApiDetectFrame _ _ _ _ _ _) q log Hlog).
Qed.

Lemma pointers_and_sizes_reach_detector_witness :
  (library_load (detector := Recorder.detector (λ _ _, FAILURE)))
    !! m_HolisticTrackingDetect = Some []
  ∧ MediapipeHolisticTrackingInit
      (detector := Recorder.detector (λ _ _, FAILURE))
      NULL true true true true
      (library_load (detector := Recorder.detector (λ _ _, FAILURE)))
    = Some (FAILURE,
            {[ m_HolisticTrackingDetect :=
                 [CallInitModel NULL true true true true] ]})
  ∧ MediapipeHolisticTrackingDetectFrameDirect
      (detector := Recorder.detector (λ _ _, FAILURE))
      0 (-480) NULL NULL false
      (library_load (detector := Recorder.detector (λ _ _, FAILURE)))
    = Some (FAILURE,
            {[ m_HolisticTrackingDetect :=
                 [CallDetectImageDirect 0 (-480) NULL NULL false] ]})
  ∧ MediapipeHolisticTrackingDetectFrame
      (detector := Recorder.detector (λ _ _, FAILURE))
      (-1) 0 7 NULL (Ptr 8) NULL
      (library_load (detector := Recorder.detector (λ _ _, FAILURE)))
    = Some (FAILURE,
            {[ m_HolisticTrackingDetect :=
                 [CallDetectImage (-1) 0 7 NULL (Ptr 8) NULL] ]}).
Proof.
  assert (Hlog : (library_load
                    (detector := Recorder.detector (λ _ _, FAILURE)))
                   !! m_HolisticTrackingDetect = Some [])
    by reflexivity.
  destruct (pointers_and_sizes_reach_detector
              (detector := Recorder.detector (λ _ _, FAILURE))
              library_load [] (λ _ _, FAILURE) library_load [] Hlog Hlog)
    as (_ & Hinit & Hdirect & Hframe).
  split; [exact Hlog|]. split; [|split].
  - rewrite Hinit. reflexivity.
  - rewrite Hdirect. reflexivity.
  - rewrite Hframe. reflexivity.
Defined.

(** ** Determinism *)

(** C10.  An exported function is a function of its arguments and the state of
    the global detector.  Two calls of the same exported function with the
    same arguments, made in two processes whose global detector is in the same
    state [d], both come down to the same detector method on the same
    arguments and the same [d]: they return the same value and leave the
    global detector in the same state. *)
Theorem exported_deterministic
    {D : Type} {detector : HolisticTrackingDetect D}
    (c : ApiCall) (p1 p2 : Process D) (d : D) :
  p1 !! m_HolisticTrackingDetect = Some d →
  p2 !! m_HolisticTrackingDetect = Some d →
  ∃ p1' p2',
    exported c p1 = Some ((perform (forwarded c) d).1, p1')
    ∧ exported c p2 = Some ((perform (forwarded c) d).1, p2')
    ∧ p1' !! m_HolisticTrackingDetect = Some (perform (forwarded c) d).2
    ∧ p2' !! m_HolisticTrackingDetect = Some (perform (forwarded c) d).2.
Proof.
  intros H1 H2.
  rewrite (exported_loaded c p1 d H1), (exported_loaded c p2 d H2).
  eexists _, _. split; [done|]. split; [done|].
  by rewrite !lookup_insert_eq.
Qed.

Lemma exported_deterministic_witness :
  let detector := Recorder.detector (λ log _, Z.of_nat (length log)) in
  let p1 : Process (list MethodCall) :=
    {[ m_HolisticTrackingDetect := [CallRelease] ]} in
  let p2 : Process (list MethodCall) :=
    <[5%positive := [CallDetectCamera false]]> p1 in
  p1 !! m_HolisticTrackingDetect = Some [CallRelease]
  ∧ p2 !! m_HolisticTrackingDetect = Some [CallRelease]
  ∧ fst <$> exported (ApiInit (Ptr 64) true true false false) p1
    = Some 1%Z
  ∧ fst <$> exported (ApiInit (Ptr 64) true true false false) p2
    = Some 1%Z.
Proof.
  intros detector p1 p2.
  assert (H1 : p1 !! m_HolisticTrackingDetect = Some [CallRelease])
    by reflexivity.
  assert (H2 : p2 !! m_HolisticTrackingDetect = Some [CallRelease])
    by reflexivity.
  destruct (exported_deterministic
              (ApiInit (Ptr 64) true true false false)
              p1 p2 [CallRelease] H1 H2)
    as (p1' & p2' & E1 & E2 & _).
  split; [exact H1|]. split; [exact H2|]. split.
  - rewrite E1. reflexivity.
  - rewrite E2. reflexivity.
Defined.

(** ** The detector of the specification behind the export surface *)

Section SpecDetectorFacts.
Variable outcome : MethodCall → bool.
Implicit Types (p : Process SpecDetector.state) (d : SpecDetector.state).

Lemma code_binary ok :
  SpecDetector.code ok = 0%Z ∨ SpecDetector.code ok = 1%Z.
Proof. destruct ok; [by right | by left]. Qed.

Lemma perform_binary c d :
  (perform (detector := SpecDetector.detector outcome) c d).1 = 0%Z
  ∨ (perform (detector := SpecDetector.detector outcome) c d).1 = 1%Z.
Proof.
  destruct c; simpl;
    unfold SpecDetector.InitModel, SpecDetector.detect, SpecDetector.Release;
    repeat case_match; simpl; auto using code_binary.
Qed.

(** A detector that is not initialized refuses every call but [InitModel],
    and stays as it is. *)
Lemma perform_not_serving c d :
  is_init c = false →
  SpecDetector.stage d ≠ SpecDetector.Initialized →
  perform (detector := SpecDetector.detector outcome) (forwarded c) d = (FAILURE, d).
Proof.
  intros Hc Hd. destruct c; try discriminate; simpl;
    unfold SpecDetector.detect, SpecDetector.Release;
    by destruct (SpecDetector.stage d).
Qed.

(** A detect call never changes the detector. *)
Lemma perform_detect_state c d :
  is_detect c = true →
  (perform (detector := SpecDetector.detector outcome) (forwarded c) d).2 = d.
Proof.
  intros Hc. destruct c; try discriminate; simpl;
    unfold SpecDetector.detect; by destruct (SpecDetector.stage d).
Qed.


Lemma run_not_serving calls p d :
  p !! m_HolisticTrackingDetect = Some d →
  SpecDetector.stage d ≠ SpecDetector.Initialized →
  forallb (λ c, negb (is_init c)) calls = true →
  run (detector := SpecDetector.detector outcome) calls p
  = Some (replicate (length calls) FAILURE, p).
Proof.
  intros Hd Hstage. induction calls as [|c calls IH]; [done|].
  simpl. intros [Hc Hrest]%andb_prop. apply negb_true_iff in Hc.
  rewrite (exported_loaded c p d Hd).
  rewrite (perform_not_serving c d Hc Hstage). simpl.
  rewrite (insert_id p _ _ Hd), (IH Hrest). done.
Qed.
(** A successful [MediapipeHolisticTrackingInit] leaves the detector of the
    specification initialized with exactly the streams the flags name. *)
Lemma Init_configures_streams model_path v ps h f p d :
  p !! m_HolisticTrackingDetect = Some d →
  outcome (CallInitModel model_path v ps h f) = true →
  MediapipeHolisticTrackingInit (detector := SpecDetector.detector outcome)
    model_path v ps h f p
  = Some (SUCCESS,
          <[m_HolisticTrackingDetect :=
              {| SpecDetector.stage := SpecDetector.Initialized;
                 SpecDetector.active :=
                   Some {| SpecDetector.video := v; SpecDetector.pose := ps;
                           SpecDetector.hand := h; SpecDetector.face := f |}
              |}]> p).
Proof.
  intros Hd Hok. unfold MediapipeHolisticTrackingInit.
  rewrite (invoke_loaded _ p d Hd). simpl.
  unfold SpecDetector.InitModel. by rewrite Hok.
Qed.

End SpecDetectorFacts.

(** The whole lifecycle once: initialise, detect, release, detect again. *)
Example lifecycle_run :
  run (detector := SpecDetector.detector (λ _, true))
    [ApiInit (Ptr 64) true true false false;
     ApiDetectFrameDirect 640 480 (Ptr 8) (Ptr 16) false;
     ApiRelease;
     ApiDetectFrameDirect 640 480 (Ptr 8) (Ptr 16) false]
    (library_load (detector := SpecDetector.detector (λ _, true)))
  = Some ([1; 1; 1; 0]%Z,
          {[ m_HolisticTrackingDetect :=
               {| SpecDetector.stage := SpecDetector.Released;
                  SpecDetector.active :=
                    Some {| SpecDetector.video := true;
                            SpecDetector.pose := true;
                            SpecDetector.hand := false;
                            SpecDetector.face := false |} |} ]}).
Proof. reflexivity. Qed.

(** The export surface hands on whatever [int] the detector answers; it does
    not narrow the answer to 0 or 1 by itself. *)
Example exported_passes_any_int :
  MediapipeHolisticTrackingDetectCamera
    (detector := Recorder.detector (λ _ _, (-3)%Z)) true
    (library_load (detector := Recorder.detector (λ _ _, (-3)%Z)))
  = Some ((-3)%Z, {[ m_HolisticTrackingDetect := [CallDetectCamera true] ]}).
Proof. reflexivity. Qed.



(** ** Return codes *)

(** C2.  With the detector of the specification behind it, every call of any
    of the five exported functions, with any arguments and with the global
    detector in any state, returns, and the value it returns is 0 or 1. *)
Theorem return_codes_binary
    (outcome : MethodCall → bool) (c : ApiCall)
    (p : Process SpecDetector.state) (d : SpecDetector.state) :
  p !! m_HolisticTrackingDetect = Some d →
  ∃ ret p',
    exported (detector := SpecDetector.detector outcome) c p = Some (ret, p')
    ∧ (ret = 0%Z ∨ ret = 1%Z).
Proof.
  intros Hd. rewrite (exported_loaded c p d Hd).
  eexists _, _. split; [done|]. apply perform_binary.
Qed.

Lemma return_codes_binary_witness :
  (library_load (detector := SpecDetector.detector (λ _, true)))
    !! m_HolisticTrackingDetect = Some SpecDetector.ctor
  ∧ ∃ ret p',
      exported (detector := SpecDetector.detector (λ _, true))
        (ApiDetectCamera true)
        (library_load (detector := SpecDetector.detector (λ _, true)))
      = Some (ret, p')
      ∧ (ret = 0%Z ∨ ret = 1%Z).
Proof.
  split; [reflexivity|].
  apply (return_codes_binary (λ _, true) (ApiDetectCamera true)
           _ SpecDetector.ctor).
  reflexivity.
Defined.

(** ** Calls before initialisation *)

(** C3.  With the detector of the specification behind it: after the library
    is loaded and before [MediapipeHolisticTrackingInit] has been called, any
    calls of the three detect functions and of
    [MediapipeHolisticTrackingRelease], in any number and order, all go
    through (none stops the run) and all return failure, 0; the process is
    left as it was loaded. *)
Theorem calls_before_Init_fail
    (outcome : MethodCall → bool) (calls : list ApiCall) :
  forallb (λ c, negb (is_init c)) calls = true →
  run (detector := SpecDetector.detector outcome) calls
    (library_load (detector := SpecDetector.detector outcome))
  = Some (replicate (length calls) 0%Z,
          library_load (detector := SpecDetector.detector outcome)).
Proof.
  intros Hcalls.
  apply (run_not_serving outcome calls _ SpecDetector.ctor);
    [reflexivity | discriminate | exact Hcalls].
Qed.

Lemma calls_before_Init_fail_witness :
  forallb (λ c, negb (is_init c))
    [ApiDetectFrameDirect 640 480 (Ptr 8) (Ptr 16) false;
     ApiDetectFrame 640 480 0 (Ptr 8) (Ptr 16) (Ptr 24);
     ApiDetectCamera true;
     ApiRelease] = true
  ∧ run (detector := SpecDetector.detector (λ _, true))
      [ApiDetectFrameDirect 640 480 (Ptr 8) (Ptr 16) false;
       ApiDetectFrame 640 480 0 (Ptr 8) (Ptr 16) (Ptr 24);
       ApiDetectCamera true;
       ApiRelease]
      (library_load (detector := SpecDetector.detector (λ _, true)))
    = Some ([0; 0; 0; 0]%Z, {[ m_HolisticTrackingDetect := SpecDetector.ctor ]}).
Proof.
  split; [reflexivity|].
  apply (calls_before_Init_fail (λ _, true)
           [ApiDetectFrameDirect 640 480 (Ptr 8) (Ptr 16) false;
            ApiDetectFrame 640 480 0 (Ptr 8) (Ptr 16) (Ptr 24);
            ApiDetectCamera true;
            ApiRelease]).
  reflexivity.
Defined.

(** ** Calls after release *)




(** ** What the detect functions leave alone *)

(** C6.  With the detector of the specification behind it, a call of any of
    the three detect functions returns and leaves the state the export surface
    answers for as it found it: the same detector objects exist, and the
    global one is in the same lifecycle stage.  So that state changes only
    under the two remaining functions, [MediapipeHolisticTrackingInit] and
    [MediapipeHolisticTrackingRelease]. *)
Theorem detect_preserves_shim_state
    (outcome : MethodCall → bool) (c : ApiCall)
    (p : Process SpecDetector.state) (d : SpecDetector.state) :
  p !! m_HolisticTrackingDetect = Some d →
  is_detect c = true →
  ∃ ret p',
    exported (detector := SpecDetector.detector outcome) c p = Some (ret, p')
    ∧ shim_state p' = shim_state p.
Proof.
  intros Hd Hc. rewrite (exported_loaded c p d Hd).
  eexists _, _. split; [done|].
  rewrite (perform_detect_state outcome c d Hc).
  by rewrite (insert_id p _ _ Hd).
Qed.

Lemma detect_preserves_shim_state_witness :
  let detector := SpecDetector.detector (λ _, true) in
  let serving : Process SpecDetector.state :=
    {[ m_HolisticTrackingDetect :=
         {| SpecDetector.stage := SpecDetector.Initialized;
            SpecDetector.active :=
              Some {| SpecDetector.video := true; SpecDetector.pose := false;
                      SpecDetector.hand := true; SpecDetector.face := false |}
         |} ]} in
  MediapipeHolisticTrackingInit (Ptr 64) true false true false library_load
  = Some (1%Z, serving)
  ∧ is_detect (ApiDetectFrame 640 480 0 (Ptr 8) (Ptr 16) (Ptr 24)) = true
  ∧ ∃ ret p',
      exported (ApiDetectFrame 640 480 0 (Ptr 8) (Ptr 16) (Ptr 24)) serving
      = Some (ret, p')
      ∧ shim_state p' = shim_state serving.
Proof.
  intros detector serving.
  split; [reflexivity|]. split; [reflexivity|].
  apply (detect_preserves_shim_state (λ _, true)
           (ApiDetectFrame 640 480 0 (Ptr 8) (Ptr 16) (Ptr 24)) serving
           {| SpecDetector.stage := SpecDetector.Initialized;
              SpecDetector.active :=
                Some {| SpecDetector.video := true; SpecDetector.pose := false;
                        SpecDetector.hand := true; SpecDetector.face := false |}
           |});
    reflexivity.
Defined.


(** * Further properties of the export surface *)

(** ** Runs of calls *)

Section RunFacts.
Context {D : Type} {detector : HolisticTrackingDetect D}.
Implicit Types (p : Process D) (d : D).

Lemma detector_run_cons (m : MethodCall) calls d :
  detector_run (m :: calls) d
  = ((perform m d).1 :: (detector_run calls (perform m d).2).1,
     (detector_run calls (perform m d).2).2).
Proof.
  simpl. destruct (perform m d) as [ret d1]. simpl.
  by destruct (detector_run calls d1).
Qed.

Lemma run_inv_cons c calls p rets p' :
  run (c :: calls) p = Some (rets, p') →
  ∃ ret p1 rest,
    exported c p = Some (ret, p1)
    ∧ run calls p1 = Some (rest, p')
    ∧ rets = ret :: rest.
Proof.
  simpl. destruct (exported c p) as [[ret p1]|]; [|done]. simpl.
  destruct (run calls p1) as [[rest p2]|] eqn:Hrest; [|done]. simpl.
  intros [= <- <-]. by exists ret, p1, rest.
Qed.
End RunFacts.

(** X1.  A run of calls through the export surface is the same run made on
    the detector directly.  On a process whose global detector is in state
    [d], any sequence of exported calls goes through; the values it returns
    are, in order, the values the detector's methods return when called one
    after another on [d], each on the state the previous one left; and the
    global ends in the state those method calls leave.  The export surface
    keeps no state of its own between calls and never resets or copies the
    detector. *)
Theorem run_is_detector_run
    {D : Type} {detector : HolisticTrackingDetect D}
    (calls : list ApiCall) (p : Process D) (d : D) :
  p !! m_HolisticTrackingDetect = Some d →
  run calls p
  = Some ((detector_run (forwarded <$> calls) d).1,
          <[m_HolisticTrackingDetect :=
              (detector_run (forwarded <$> calls) d).2]> p).
Proof.
  revert p d. induction calls as [|c calls IH]; intros p d Hd.
  - simpl. by rewrite (insert_id p _ _ Hd).
  - rewrite (run_cons c calls p d Hd), fmap_cons, detector_run_cons.
    rewrite (IH _ (perform (forwarded c) d).2) by apply lookup_insert_eq.
    simpl. by rewrite insert_insert_eq.
Qed.

Lemma run_is_detector_run_witness :
  let detector := Recorder.detector (λ log _, Z.of_nat (length log)) in
  let p : Process (list MethodCall) :=
    <[7%positive := [CallRelease]]> library_load in
  let calls :=
    [ApiInit (Ptr 64) true true true true;
     ApiDetectCamera false;
     ApiRelease] in
  p !! m_HolisticTrackingDetect = Some []
  ∧ run calls p
    = Some ([0; 1; 2]%Z,
            <[m_HolisticTrackingDetect :=
                [CallInitModel (Ptr 64) true true true true;
                 CallDetectCamera false;
                 CallRelease]]> p).
Proof.
  intros detector p calls.
  assert (Hd : p !! m_HolisticTrackingDetect = Some []) by reflexivity.
  split; [exact Hd|].
  exact (run_is_detector_run calls p [] Hd).
Defined.

(** X2.  A run of calls touches the global detector and nothing else.  When a
    sequence of exported calls goes through, it returns one value per call,
    the process holds the same detector objects afterwards as before (none
    was created, none destroyed), and every object other than the global is
    exactly as it was. *)
Theorem run_touches_only_global
    {D : Type} {detector : HolisticTrackingDetect D}
    (calls : list ApiCall) (p p' : Process D) (rets : list int) :
  run calls p = Some (rets, p') →
  length rets = length calls
  ∧ dom p' = dom p
  ∧ ∀ k, k ≠ m_HolisticTrackingDetect → p' !! k = p !! k.
Proof.
  revert p rets. induction calls as [|c calls IH]; intros p rets Hrun.
  - revert Hrun. simpl. intros [= <- <-]. by repeat split.
  - apply run_inv_cons in Hrun as (ret & p1 & rest & Hc & Hrest & ->).
    destruct (IH p1 rest Hrest) as (Hlen & Hdom & Hframe).
    split; [simpl; by rewrite Hlen|]. split.
    + rewrite Hdom. by apply (exported_dom c p ret p1).
    + intros k Hk. rewrite (Hframe k Hk).
      by apply (exported_frame c p ret p1 k).
Qed.

Lemma run_touches_only_global_witness :
  let detector := Recorder.detector (λ _ _, SUCCESS) in
  let p : Process (list MethodCall) :=
    <[7%positive := [CallRelease]]> library_load in
  let calls := [ApiInit NULL false false false false; ApiRelease] in
  let p' : Process (list MethodCall) :=
    <[m_HolisticTrackingDetect :=
        [CallInitModel NULL false false false false; CallRelease]]> p in
  run calls p = Some ([1; 1]%Z, p')
  ∧ length [1; 1]%Z = length calls
  ∧ dom p' = dom p
  ∧ ∀ k, k ≠ m_HolisticTrackingDetect → p' !! k = p !! k.
Proof.
  intros detector p calls p'.
  assert (Hrun : run calls p = Some ([1; 1]%Z, p')) by reflexivity.
  split; [exact Hrun|].
  exact (run_touches_only_global calls p p' [1; 1]%Z Hrun).
Defined.

(** X3.  The export surface returns nothing of its own making.  Whatever
    holds of every value the detector's methods can return holds of every
    value a run of exported calls returns; with a detector that answers only
    0 or 1, only 0 or 1 crosses the boundary. *)
Theorem run_returns_detector_values
    {D : Type} {detector : HolisticTrackingDetect D}
    (P : int → Prop) (calls : list ApiCall) (p p' : Process D)
    (rets : list int) :
  (∀ m d, P (perform m d).1) →
  run calls p = Some (rets, p') →
  Forall P rets.
Proof.
  intros HP. revert p rets. induction calls as [|c calls IH]; intros p rets Hrun.
  - revert Hrun. simpl. intros [= <- <-]. constructor.
  - apply run_inv_cons in Hrun as (ret & p1 & rest & Hc & Hrest & ->).
    constructor; [|by apply (IH p1)].
    rewrite exported_perform in Hc.
    apply invoke_inv in Hc as (d & _ & -> & _). apply HP.
Qed.

Lemma run_returns_detector_values_witness :
  let detector := Recorder.detector (λ log _, Z.of_nat (length log) `mod` 2)%Z in
  let calls :=
    [ApiDetectCamera true; ApiInit (Ptr 64) true true true true;
     ApiDetectCamera true] in
  let p' : Process (list MethodCall) :=
    {[ m_HolisticTrackingDetect :=
         [CallDetectCamera true; CallInitModel (Ptr 64) true true true true;
          CallDetectCamera true] ]} in
  (∀ m d, (perform m d).1 = 0%Z ∨ (perform m d).1 = 1%Z)
  ∧ run calls library_load = Some ([0; 1; 0]%Z, p')
  ∧ Forall (λ r, r = 0%Z ∨ r = 1%Z) [0; 1; 0]%Z.
Proof.
  intros detector calls p'.
  assert (Hbin : ∀ m d, (perform m d).1 = 0%Z ∨ (perform m d).1 = 1%Z).
  { intros m d.
    assert ((perform m d).1 = (Z.of_nat (length d) `mod` 2)%Z) as ->
      by (by destruct m).
    destruct (Z.mod_pos_bound (Z.of_nat (length d)) 2) as [Hlo Hhi]; lia. }
  assert (Hrun : run calls library_load = Some ([0; 1; 0]%Z, p'))
    by reflexivity.
  split; [exact Hbin|]. split; [exact Hrun|].
  exact (run_returns_detector_values _ calls _ _ _ Hbin Hrun).
Defined.

(** ** No two calls are conflated *)




(** ** The header's preprocessor lines *)

(** X5.  Whoever includes [HolisticTrackingApi.h] for the first time gets the
    five functions declared as exported: [EXPORT_API] comes out as
    [__declspec(dllexport)] where [_WIN32] is defined and as the
    default-visibility attribute elsewhere.  Because the header defines
    [EXPORT] itself on line 4, this does not depend on whether the including
    file defined [EXPORT], nor on an earlier definition of [EXPORT_API]: the
    [dllimport] branch of line 12 and the empty definition of line 30 are
    never taken. *)
Theorem EXPORT_API_always_exports (m : Header.Macros) :
  Header.HOLISTIC_TRACKING_API_H m = false →
  Header.EXPORT_API (Header.HolisticTrackingApi_h m)
  = Some (if Header._WIN32 m
          then Header.declspec_dllexport
          else Header.visibility_default)
  ∧ Header.EXPORT (Header.HolisticTrackingApi_h m) = true
  ∧ Header._WIN32 (Header.HolisticTrackingApi_h m) = Header._WIN32 m.
Proof.
  destruct m as [guard export win32 api]. simpl. intros ->.
  by destruct win32.
Qed.

Lemma EXPORT_API_always_exports_witness :
  let client :=
    {| Header.HOLISTIC_TRACKING_API_H := false;
       Header.EXPORT := false;
       Header._WIN32 := true;
       Header.EXPORT_API := Some Header.declspec_dllimport |} in
  Header.HOLISTIC_TRACKING_API_H client = false
  ∧ Header.EXPORT_API (Header.HolisticTrackingApi_h client)
    = Some Header.declspec_dllexport.
Proof.
  intros client. split; [reflexivity|].
  exact (proj1 (EXPORT_API_always_exports client eq_refl)).
Defined.

(** X6.  The include guard works: once the header has been included, the
    guard macro is defined, and including the header again changes no macro,
    whatever the including file has defined or undefined of [EXPORT],
    [_WIN32] and [EXPORT_API] in between. *)
Theorem include_guard_idempotent (m : Header.Macros) :
  Header.HOLISTIC_TRACKING_API_H (Header.HolisticTrackingApi_h m) = true
  ∧ Header.HolisticTrackingApi_h (Header.HolisticTrackingApi_h m)
    = Header.HolisticTrackingApi_h m
  ∧ ∀ export win32 api,
      Header.HolisticTrackingApi_h
        {| Header.HOLISTIC_TRACKING_API_H :=
             Header.HOLISTIC_TRACKING_API_H (Header.HolisticTrackingApi_h m);
           Header.EXPORT := export;
           Header._WIN32 := win32;
           Header.EXPORT_API := api |}
      = {| Header.HOLISTIC_TRACKING_API_H := true;
           Header.EXPORT := export;
           Header._WIN32 := win32;
           Header.EXPORT_API := api |}.
Proof.
  assert (Hguard :
    Header.HOLISTIC_TRACKING_API_H (Header.HolisticTrackingApi_h m) = true).
  { destruct m as [guard export win32 api].
    by destruct guard, win32. }
  split; [exact Hguard|]. split.
  - unfold Header.HolisticTrackingApi_h at 1. by rewrite Hguard.
  - intros. rewrite Hguard. reflexivity.
Qed.
